(** * mongomodels: the document schema catalog

    A shallow embedding of [mongomodels.py].  The module declares thirteen
    [Document] classes; every class is a list of field declarations
    (field class plus keyword options) and a [meta] dictionary holding the
    secondary indexes and the shard key.  [People] defines [__hash__];
    [Commit], [Issue], [Event] and [IssueComment] define [__str__].

    Python values are dynamically typed, so a record is a finite map from
    attribute names to values of a universal value type; an attribute that
    is [None] is an absent key.

    Validation and the write path are the work of the library behind
    [Document]; they are modelled after the class declarations, from the
    contract of the schema catalog. *)

From Stdlib Require Import ZArith Ascii.
From stdpp Require Import gmap strings list fin_maps.

Open Scope string_scope.

(** ** Python values *)

(** A [bson.ObjectId] is an opaque identifier. *)
Definition ObjectId := N.

#[local] Unset Elimination Schemes.
Inductive value : Type :=
| VStr (s : string)
| VInt (n : Z)
| VBool (b : bool)
| VOid (o : ObjectId)
| VDate (t : Z)
| VList (l : list value)
| VDict (d : list (string * value)).
#[local] Set Elimination Schemes.

(** Structural equality on values, as a boolean function. *)
Fixpoint value_eqb (a b : value) {struct a} : bool :=
  match a, b with
  | VStr s, VStr t => bool_decide (s = t)
  | VInt n, VInt m => bool_decide (n = m)
  | VBool x, VBool y => bool_decide (x = y)
  | VOid o, VOid p => bool_decide (o = p)
  | VDate t, VDate u => bool_decide (t = u)
  | VList l, VList m =>
      (fix go (l m : list value) : bool :=
         match l, m with
         | [], [] => true
         | x :: l', y :: m' => value_eqb x y && go l' m'
         | _, _ => false
         end) l m
  | VDict d, VDict e =>
      (fix go (d e : list (string * value)) : bool :=
         match d, e with
         | [], [] => true
         | (k, x) :: d', (k', y) :: e' =>
             bool_decide (k = k') && value_eqb x y && go d' e'
         | _, _ => false
         end) d e
  | _, _ => false
  end.

(** Equality of two attributes, either of which may be absent. *)
Definition attr_eqb (a b : option value) : bool :=
  match a, b with
  | Some x, Some y => value_eqb x y
  | None, None => true
  | _, _ => false
  end.

(** A record of any class: attribute name ↦ value. *)
Abbreviation doc := (gmap string value).

(** ** Field declarations *)

(** The [choices] option is either a flat tuple of allowed values
    ([FileAction.MODES]) or a tuple of (value, description) pairs
    ([Event.STATI]). *)
Inductive choices_decl : Type :=
| Flat (values : list string)
| Pairs (entries : list (string * string)).

(** Keyword options of a field constructor; [kw] is a call without
    keywords. *)
Record options : Type := Options {
  max_length : option nat;
  required : bool;
  choices : option choices_decl;
  unique : bool;
  unique_with : list string
}.

Definition kw : options :=
  {| max_length := None; required := false; choices := None;
     unique := false; unique_with := [] |}.

Definition MaxLength (n : nat) (o : options) : options :=
  {| max_length := Some n; required := required o; choices := choices o;
     unique := unique o; unique_with := unique_with o |}.
Definition Required (o : options) : options :=
  {| max_length := max_length o; required := true; choices := choices o;
     unique := unique o; unique_with := unique_with o |}.
Definition Choices (c : choices_decl) (o : options) : options :=
  {| max_length := max_length o; required := required o; choices := Some c;
     unique := unique o; unique_with := unique_with o |}.
Definition Unique (o : options) : options :=
  {| max_length := max_length o; required := required o; choices := choices o;
     unique := true; unique_with := unique_with o |}.
Definition UniqueWith (fs : list string) (o : options) : options :=
  {| max_length := max_length o; required := required o; choices := choices o;
     unique := unique o; unique_with := fs |}.

(** The field classes imported from mongoengine. *)
Inductive field : Type :=
| StringField (o : options)
| IntField (o : options)
| BooleanField (o : options)
| ObjectIdField (o : options)
| DateTimeField (o : options)
| ListField (inner : field) (o : options)
| DictField (o : options).

Definition opts (f : field) : options :=
  match f with
  | StringField o | IntField o | BooleanField o | ObjectIdField o
  | DateTimeField o | ListField _ o | DictField o => o
  end.

(** A [Document] subclass: its name, its fields in declaration order and
    the two entries of its [meta] dictionary.  An index entry is a field
    name or a tuple of field names; both are lists here. *)
Record document_class : Type := DocumentClass {
  cls_name : string;
  fields : list (string * field);
  indexes : list (list string);
  shard_key : list string
}.

(** ** The classes of mongomodels.py, in source order *)

Module FileAction.
Definition MODES : list string := ["A"; "M"; "D"; "C"; "T"].
Definition projectId := ObjectIdField (Required kw).
Definition fileId := ObjectIdField (Required kw).
Definition revisionHash :=
  StringField (MaxLength 50 (Required (UniqueWith ["projectId"; "fileId"] kw))).
Definition mode := StringField (MaxLength 1 (Required (Choices (Flat MODES) kw))).
Definition sizeAtCommit := IntField kw.
Definition linesAdded := IntField kw.
Definition linesDeleted := IntField kw.
Definition isBinary := BooleanField kw.
Definition oldFilePathId := ObjectIdField kw.
Definition hunkIds := ListField (ObjectIdField kw) kw.
Definition cls : document_class :=
  {| cls_name := "FileAction";
     fields := [("projectId", projectId); ("fileId", fileId);
                ("revisionHash", revisionHash); ("mode", mode);
                ("sizeAtCommit", sizeAtCommit); ("linesAdded", linesAdded);
                ("linesDeleted", linesDeleted); ("isBinary", isBinary);
                ("oldFilePathId", oldFilePathId); ("hunkIds", hunkIds)];
     indexes := [["projectId"]; ["projectId"; "revisionHash"]];
     shard_key := ["revisionHash"; "projectId"; "fileId"] |}.
End FileAction.

Module Hunk.
Definition cls : document_class :=
  {| cls_name := "Hunk";
     fields := [("new_start", IntField (Required kw));
                ("new_lines", IntField (Required kw));
                ("old_start", IntField (Required kw));
                ("old_lines", IntField (Required kw));
                ("content", StringField (Required kw))];
     indexes := [["#id"]];
     shard_key := ["id"] |}.
End Hunk.

Module File.
Definition cls : document_class :=
  {| cls_name := "File";
     fields := [("projectId", ObjectIdField (Required kw));
                ("path", StringField (MaxLength 300 (Required (UniqueWith ["projectId"] kw))));
                ("name", StringField (MaxLength 100 (Required kw)))];
     indexes := [["projectId"]];
     shard_key := ["path"; "projectId"] |}.
End File.

Module Tag.
Definition cls : document_class :=
  {| cls_name := "Tag";
     fields := [("projectId", ObjectIdField (Required (UniqueWith ["name"] kw)));
                ("name", StringField (MaxLength 150 (Required kw)));
                ("message", StringField kw);
                ("taggerId", ObjectIdField kw);
                ("date", DateTimeField kw);
                ("offset", IntField kw)];
     indexes := [["projectId"]];
     shard_key := ["projectId"; "name"] |}.
End Tag.

(** ** Exceptions and the two Python operations the methods use *)

Inductive exn : Type :=
| TypeError
| ValidationError (offending : list string)
| DuplicateKeyError.

Inductive result (A : Type) : Type :=
| Ok (a : A)
| Raise (e : exn).
Arguments Ok {A} a.
Arguments Raise {A} e.

(** [a + b] on attribute values ([None] is an absent attribute): strings
    and lists concatenate, integers and booleans add as numbers, every
    other combination raises [TypeError]. *)
Definition as_number (v : value) : option Z :=
  match v with
  | VInt n => Some n
  | VBool b => Some (if b then 1 else 0)%Z
  | _ => None
  end.

Definition py_add (a b : option value) : result value :=
  match a, b with
  | Some (VStr s), Some (VStr t) => Ok (VStr (s ++ t))
  | Some (VList l), Some (VList m) => Ok (VList (l ++ m))
  | Some x, Some y =>
      match as_number x, as_number y with
      | Some n, Some m => Ok (VInt (n + m))
      | _, _ => Raise TypeError
      end
  | _, _ => Raise TypeError
  end.

(** [sep.join(xs)] on strings. *)
Fixpoint join (sep : string) (xs : list string) : string :=
  match xs with
  | [] => ""
  | x :: rest =>
      match rest with
      | [] => x
      | _ :: _ => x ++ sep ++ join sep rest
      end
  end.

(** The items of a list when all of them are strings. *)
Fixpoint strings_of (l : list value) : option (list string) :=
  match l with
  | [] => Some []
  | VStr s :: l' =>
      match strings_of l' with
      | Some ss => Some (s :: ss)
      | None => None
      end
  | _ :: _ => None
  end.

Fixpoint characters (s : string) : list string :=
  match s with
  | EmptyString => []
  | String c s' => String c EmptyString :: characters s'
  end.

(** [sep.join(v)] on an attribute value: a list is joined when all its
    items are strings, a string is iterated character by character, a
    dictionary by its keys; anything else, [None] included, is not an
    iterable of strings and raises [TypeError]. *)
Definition py_join (sep : string) (v : option value) : result string :=
  match v with
  | Some (VList l) =>
      match strings_of l with
      | Some ss => Ok (join sep ss)
      | None => Raise TypeError
      end
  | Some (VStr s) => Ok (join sep (characters s))
  | Some (VDict d) => Ok (join sep d.*1)
  | _ => Raise TypeError
  end.

(** What [fmt % args] gives: the message, a [TypeError] (too few or too
    many arguments) or a [ValueError] (a conversion other than [%s] and
    [%%], or a lone [%] at the end). *)
Inductive formatted : Type :=
| Formatted (s : string)
| FormatTypeError
| FormatValueError.

Definition prepend (p : string) (r : formatted) : formatted :=
  match r with
  | Formatted s => Formatted (p ++ s)
  | FormatTypeError => FormatTypeError
  | FormatValueError => FormatValueError
  end.

(** [fmt % args] where every argument has been converted by [str]
    already: the format is read left to right, each [%s] takes the next
    argument, and arguments left over at the end are an error. *)
Fixpoint py_format (fmt : string) (args : list string) : formatted :=
  match fmt with
  | EmptyString =>
      match args with
      | [] => Formatted ""
      | _ :: _ => FormatTypeError
      end
  | String "%"%char rest =>
      match rest with
      | String "s"%char rest' =>
          match args with
          | a :: args' => prepend a (py_format rest' args')
          | [] => FormatTypeError
          end
      | String "%"%char rest' => prepend "%" (py_format rest' args)
      | _ => FormatValueError
      end
  | String c rest => prepend (String c EmptyString) (py_format rest args)
  end.

(** Reading an attribute declared as a [ListField]: one that was never
    set reads as the empty list, the default of the field class. *)
Definition list_attr (self : doc) (n : string) : option value :=
  match self !! n with
  | Some v => Some v
  | None => Some (VList [])
  end.

(** A record in memory: the identity of the object and its attributes. *)
Record object : Type := Object {
  address : N;
  attrs : doc
}.

Module Document.
(** [__eq__] as the classes of the module inherit it from the [Document]
    base class; it is library code and no class of [mongomodels.py]
    overrides it.  Against a record of the same class that has an [id]
    the two [id]s are compared; a record without an [id] is equal to
    itself only, as an object. *)
Definition __eq__ (self other : object) : bool :=
  match attrs other !! "id" with
  | Some _ => attr_eqb (attrs self !! "id") (attrs other !! "id")
  | None =>
      match attrs self !! "id" with
      | None => N.eqb (address self) (address other)
      | Some _ => false
      end
  end.
End Document.

Module People.
Definition cls : document_class :=
  {| cls_name := "People";
     fields := [("email", StringField (MaxLength 150 (Required (UniqueWith ["name"] kw))));
                ("name", StringField (MaxLength 150 (Required kw)));
                ("username", StringField (MaxLength 300 kw))];
     indexes := [];
     shard_key := ["email"; "name"] |}.

(** [hash(self.name+self.email)]; the builtin [hash] is a parameter. *)
Definition __hash__ (hash : value → result Z) (self : doc) : result Z :=
  match py_add (self !! "name") (self !! "email") with
  | Ok v => hash v
  | Raise e => Raise e
  end.
End People.

Module Project.
Definition cls : document_class :=
  {| cls_name := "Project";
     fields := [("url", StringField (MaxLength 400 (Required (Unique kw))));
                ("name", StringField (MaxLength 100 (Required kw)));
                ("repositoryType", StringField (MaxLength 15 kw));
                ("issue_urls", ListField (StringField kw) kw);
                ("mailing_urls", ListField (StringField kw) kw)];
     indexes := [["#url"]];
     shard_key := ["url"] |}.
End Project.

Module Commit.
Definition cls : document_class :=
  {| cls_name := "Commit";
     fields := [("projectId", ObjectIdField (Required (UniqueWith ["revisionHash"] kw)));
                ("revisionHash", StringField (MaxLength 50 (Required kw)));
                ("branches", ListField (StringField (MaxLength 500 kw)) kw);
                ("tagIds", ListField (ObjectIdField kw) kw);
                ("parents", ListField (StringField (MaxLength 50 kw)) kw);
                ("authorId", ObjectIdField kw);
                ("authorDate", DateTimeField kw);
                ("authorOffset", IntField kw);
                ("committerId", ObjectIdField kw);
                ("committerDate", DateTimeField kw);
                ("committerOffset", IntField kw);
                ("message", StringField kw);
                ("fileActionIds", ListField (ObjectIdField kw) kw)];
     indexes := [["projectId"]];
     shard_key := ["projectId"; "revisionHash"] |}.

Definition __str__ (self : doc) : string := "".
End Commit.

Module TestState.
Definition cls : document_class :=
  {| cls_name := "TestState";
     fields := [("file_id", ObjectIdField (Required (UniqueWith ["commit_id"; "long_name"] kw)));
                ("commit_id", ObjectIdField (Required kw));
                ("long_name", StringField (Required kw));
                ("file_type", StringField kw);
                ("depends_on", ListField (ObjectIdField kw) kw);
                ("direct_imp", ListField (ObjectIdField kw) kw);
                ("mock_cut_dep", ListField (ObjectIdField kw) kw);
                ("mocked_modules", ListField (ObjectIdField kw) kw);
                ("uses_mock", BooleanField kw);
                ("error", BooleanField kw)];
     indexes := [["commit_id"]];
     shard_key := ["file_id"; "commit_id"; "long_name"] |}.
End TestState.

Module Issue.
Definition cls : document_class :=
  {| cls_name := "Issue";
     fields := [("system_id", StringField (UniqueWith ["project_id"] kw));
                ("project_id", ObjectIdField kw);
                ("title", StringField kw);
                ("desc", StringField kw);
                ("created_at", DateTimeField kw);
                ("updated_at", DateTimeField kw);
                ("creator_id", ObjectIdField kw);
                ("reporter_id", ObjectIdField kw);
                ("issue_type", StringField kw);
                ("priority", StringField kw);
                ("status", StringField kw);
                ("affects_versions", ListField (StringField kw) kw);
                ("components", ListField (StringField kw) kw);
                ("labels", ListField (StringField kw) kw);
                ("resolution", StringField kw);
                ("fix_versions", ListField (StringField kw) kw);
                ("assignee", ObjectIdField kw);
                ("issue_links", ListField (DictField kw) kw);
                ("original_time_estimate", IntField kw);
                ("environment", StringField kw)];
     indexes := [["system_id"]; ["project_id"]];
     shard_key := ["system_id"; "project_id"] |}.
(** [__str__]; the builtin [str] is a parameter.  The four joins are
    evaluated while the argument tuple is built, before the format is
    applied. *)
Definition fmt : string :=
  "System_id: %s, project_id: %s, title: %s, desc: %s, created_at: %s, updated_at: %s, issue_type: %s,"
  ++ " priority: %s, affects_versions: %s, components: %s, labels: %s, resolution: %s, fix_versions: %s,"
  ++ "assignee: %s, issue_links: %s, status: %s, time_estimate: %s, environment: %s, creator: %s, "
  ++ "reporter: %s".

Definition __str__ (str : option value → string) (self : doc) : formatted :=
  match py_join "," (list_attr self "affects_versions") with
  | Raise _ => FormatTypeError
  | Ok affects_versions =>
  match py_join "," (list_attr self "components") with
  | Raise _ => FormatTypeError
  | Ok components =>
  match py_join "," (list_attr self "labels") with
  | Raise _ => FormatTypeError
  | Ok labels =>
  match py_join "," (list_attr self "fix_versions") with
  | Raise _ => FormatTypeError
  | Ok fix_versions =>
      py_format fmt
        [str (self !! "system_id"); str (self !! "project_id");
         str (self !! "title"); str (self !! "desc");
         str (self !! "created_at"); str (self !! "updated_at");
         str (self !! "issue_type"); str (self !! "priority");
         affects_versions; components; labels;
         str (self !! "resolution"); fix_versions;
         str (self !! "assignee"); str (list_attr self "issue_links");
         str (self !! "status"); str (self !! "original_time_estimate");
         str (self !! "environment"); str (self !! "creator_id");
         str (self !! "reporter_id")]
  end end end end.
End Issue.

Module Event.
(** The double-quote character inside the description of [closed]. *)
Definition dq : string := String (Ascii.ascii_of_nat 34) EmptyString.

Definition STATI : list (string * string) :=
  [("created", "The issue was created by the actor.");
   ("closed", "The issue was closed by the actor. When the commit_id is present, it identifies the commit "
              ++ "that closed the issue using " ++ dq ++ "closes / fixes #NN" ++ dq ++ " syntax.");
   ("reopened", "The issue was reopened by the actor.");
   ("subscribed", "The actor subscribed to receive notifications for an issue.");
   ("merged", "The issue was merged by the actor. The `commit_id` attribute is the SHA1 of the HEAD "
              ++ "commit that was merged.");
   ("referenced", "The issue was referenced from a commit message. The `commit_id` attribute is the "
                  ++ "commit SHA1 of where that happened.");
   ("mentioned", "The actor was @mentioned in an issue body.");
   ("assigned", "The issue was assigned to the actor.");
   ("unassigned", "The actor was unassigned from the issue.");
   ("labeled", "A label was added to the issue.");
   ("unlabeled", "A label was removed from the issue.");
   ("milestoned", "The issue was added to a milestone.");
   ("demilestoned", "The issue was removed from a milestone.");
   ("renamed", "The issue title was changed.");
   ("locked", "The issue was locked by the actor.");
   ("unlocked", "The issue was unlocked by the actor.");
   ("head_ref_deleted", "The pull requests branch was deleted.");
   ("head_ref_restored", "The pull requests branch was restored.");
   ("description", "The description was changed.");
   ("priority", "The issue was added to a milestone.");
   ("status", "The status was changed.");
   ("resolution", "The resolution was changed.");
   ("issuetype", "The issuetype was changed.");
   ("environment", "The environment was changed.");
   ("timeoriginalestimate", "The original time estimation for fixing the issue was changed.");
   ("version", "The affected versions was changed.");
   ("component", "The component list was changed.");
   ("labels", "The labels of the issue were changed.");
   ("fix version", "The fix versions of the issue were changed.");
   ("link", "Issuelinks were added or deleted.");
   ("attachment", "The attachments of the issue were changed.");
   ("release note", "A release note was changed.");
   ("remoteissuelink", "A remote link was added to the issue.");
   ("comment", "A comment was deleted or added to the issue.");
   ("hadoop flags", "Hadoop flags were change to the issue.");
   ("timeestimate", "Time estimation was changed in the issue.");
   ("tags", "Tags of the issue were changed.")].

Definition cls : document_class :=
  {| cls_name := "Event";
     fields := [("system_id", StringField (Unique kw));
                ("issue_id", ObjectIdField kw);
                ("created_at", DateTimeField kw);
                ("status", StringField (MaxLength 50 (Choices (Pairs STATI) kw)));
                ("author_id", ObjectIdField kw);
                ("old_value", StringField kw);
                ("new_value", StringField kw)];
     indexes := [["issue_id"]; ["#system_id"]; ["issue_id"; "-created_at"]];
     shard_key := ["system_id"] |}.
Definition fmt : string :=
  "system_id: %s, issue_id: %s, created_at: %s, status: %s, author_id: %s, "
  ++ "old_value: %s, new_value: %s".

Definition __str__ (str : option value → string) (self : doc) : formatted :=
  py_format fmt
    [str (self !! "system_id"); str (self !! "issue_id");
     str (self !! "created_at"); str (self !! "status");
     str (self !! "author_id"); str (self !! "old_value");
     str (self !! "new_value")].
End Event.

Module IssueComment.
Definition cls : document_class :=
  {| cls_name := "IssueComment";
     fields := [("system_id", IntField (Unique kw));
                ("issue_id", ObjectIdField kw);
                ("created_at", DateTimeField kw);
                ("author_id", ObjectIdField kw);
                ("comment", StringField kw)];
     indexes := [["issue_id"]; ["#system_id"]; ["issue_id"; "-created_at"]];
     shard_key := ["system_id"] |}.
Definition fmt : string :=
  "system_id: %s, issue_id: %s, created_at: %s, author_id: %s, comment: %s".

Definition __str__ (str : option value → string) (self : doc) : formatted :=
  py_format fmt
    [str (self !! "system_id"); str (self !! "issue_id");
     str (self !! "created_at"); str (self !! "author_id");
     str (self !! "comment")].
End IssueComment.

(** [Import] is a reserved word, hence the underscore. *)
Module Import_.
Definition cls : document_class :=
  {| cls_name := "Import";
     fields := [("commitId", ObjectIdField (Required (UniqueWith ["fileId"] kw)));
                ("fileId", ObjectIdField (Required (UniqueWith ["commitId"] kw)));
                ("imports", ListField (StringField (MaxLength 300 kw)) kw)];
     indexes := [["commitId"]; ["fileId"]];
     shard_key := ["commitId"; "fileId"] |}.
End Import_.

Module NodeTypeCount.
Definition cls : document_class :=
  {| cls_name := "NodeTypeCount";
     fields := [("commitId", ObjectIdField (Required (UniqueWith ["fileId"] kw)));
                ("fileId", ObjectIdField (Required (UniqueWith ["commitId"] kw)));
                ("nodeCount", IntField kw);
                ("nodeTypeCounts", DictField kw)];
     indexes := [["commitId"]; ["fileId"]];
     shard_key := ["commitId"; "fileId"] |}.
End NodeTypeCount.

(** The schema catalog: every [Document] subclass of the module. *)
Definition catalog : list document_class :=
  [FileAction.cls; Hunk.cls; File.cls; Tag.cls; People.cls; Project.cls;
   Commit.cls; TestState.cls; Issue.cls; Event.cls; IssueComment.cls;
   Import_.cls; NodeTypeCount.cls].

(** ** Keys declared by a class *)

(** A field declared with [unique=True] or with [unique_with] carries a
    uniqueness constraint over itself followed by its [unique_with]
    companions. *)
Definition is_unique (f : field) : bool :=
  unique (opts f) || negb (bool_decide (unique_with (opts f) = [])).

Definition unique_indexes (E : document_class) : list (list string) :=
  omap (λ nf : string * field,
          if is_unique nf.2 then Some (nf.1 :: unique_with (opts nf.2)) else None)
       (fields E).

(** A class without a constraint of its own is keyed by the [id] that
    every [Document] has; otherwise the key is the declared constraint. *)
Definition uniqueness_key (E : document_class) : list string :=
  match unique_indexes E with
  | [] => ["id"]
  | ix :: _ => ix
  end.

(** [sub xs ys]: every name of [xs] occurs in [ys]. *)
Definition sub (xs ys : list string) : bool :=
  forallb (λ x, bool_decide (x ∈ ys)) xs.

(** ** Validate-on-write *)

(** Modelled from the spec: the validation that the [Document] base class
    runs before a write is library code outside [mongomodels.py].  It is
    taken from the contract of the schema catalog: a candidate record is
    rejected with a [ValidationError] naming the offending fields when a
    required field is absent or null, a string exceeds its declared
    maximum length, an enumerated field holds a value outside its allowed
    set, or a value does not belong to the domain of its field class (a
    malformed reference, for instance).  The [required], [max_length] and
    [choices] options are read off the declarations above, with the one
    adjustment the library makes when it builds a class: a field named in
    the [unique_with] option of another field is required, whether or not
    it is declared so. *)
Definition choice_list (c : choices_decl) : list string :=
  match c with
  | Flat values => values
  | Pairs entries => entries.*1
  end.

Definition in_choices (o : options) (v : value) : bool :=
  match choices o with
  | None => true
  | Some c =>
      match v with
      | VStr s => bool_decide (s ∈ choice_list c)
      | _ => false
      end
  end.

Definition within_max_length (o : options) (s : string) : bool :=
  match max_length o with
  | None => true
  | Some n => bool_decide (String.length s ≤ n)%nat
  end.

Fixpoint field_accepts (f : field) (v : value) : bool :=
  in_choices (opts f) v &&
  match f, v with
  | StringField o, VStr s => within_max_length o s
  | IntField _, VInt _ => true
  | BooleanField _, VBool _ => true
  | ObjectIdField _, VOid _ => true
  | DateTimeField _, VDate _ => true
  | ListField inner _, VList l => forallb (field_accepts inner) l
  | DictField _, VDict _ => true
  | _, _ => false
  end.

Definition check_field (f : field) (v : option value) : bool :=
  match v with
  | None => negb (required (opts f))
  | Some x => field_accepts f x
  end.

(** Every [Document] has an [id] attribute, an optional [ObjectId], next
    to the fields its class declares. *)
Definition id_field : string * field := ("id", ObjectIdField kw).

(** [n] is named in the [unique_with] option of a field of [E]. *)
Definition unique_with_companion (E : document_class) (n : string) : bool :=
  existsb (λ nf : string * field,
             existsb (String.eqb n) (unique_with (opts nf.2)))
          (fields E).

Definition set_required (f : field) : field :=
  match f with
  | StringField o => StringField (Required o)
  | IntField o => IntField (Required o)
  | BooleanField o => BooleanField (Required o)
  | ObjectIdField o => ObjectIdField (Required o)
  | DateTimeField o => DateTimeField (Required o)
  | ListField inner o => ListField inner (Required o)
  | DictField o => DictField (Required o)
  end.

(** A field as it stands once the class is built. *)
Definition built_field (E : document_class) (nf : string * field)
    : string * field :=
  if unique_with_companion E nf.1 then (nf.1, set_required nf.2) else nf.

Definition all_fields (E : document_class) : list (string * field) :=
  (built_field E <$> fields E) ++ [id_field].

Definition offending (E : document_class) (r : doc) : list string :=
  (List.filter (λ nf : string * field, negb (check_field nf.2 (r !! nf.1)))
               (all_fields E)).*1.

Definition validate (E : document_class) (r : doc) : result unit :=
  match offending E r with
  | [] => Ok tt
  | bad => Raise (ValidationError bad)
  end.

(** [fields_valid_except E skip r]: every field of [E] whose name is not
    in [skip] passes its check on [r]. *)
Definition fields_valid_except (E : document_class) (skip : list string)
    (r : doc) : bool :=
  forallb (λ nf : string * field,
             bool_decide (nf.1 ∈ skip) || check_field nf.2 (r !! nf.1))
          (all_fields E).

(** ** The write path *)

Module Storage.

(** One logical collection per class, addressed by the class name. *)
Definition collection (E : document_class) : string := cls_name E.

Abbreviation store := (gmap string (list doc)).

Definition documents (E : document_class) (s : store) : list doc :=
  default [] (s !! collection E).

Definition key_values (ix : list string) (r : doc) : list (option value) :=
  (λ f, r !! f) <$> ix.

Definition same_key (ix : list string) (r d : doc) : bool :=
  forallb (λ f, attr_eqb (r !! f) (d !! f)) ix.

Definition id_taken (r : doc) (docs : list doc) : bool :=
  match r !! "id" with
  | Some v => existsb (λ d : doc, attr_eqb (d !! "id") (Some v)) docs
  | None => false
  end.

Definition duplicate (E : document_class) (r : doc) (docs : list doc) : bool :=
  id_taken r docs
  || existsb (λ ix, existsb (same_key ix r) docs) (unique_indexes E).

Definition doc_id (d : doc) : ObjectId :=
  match d !! "id" with
  | Some (VOid o) => o
  | _ => 0%N
  end.

Definition max_id (docs : list doc) : ObjectId :=
  foldr N.max 0%N (doc_id <$> docs).

(** An identifier above every identifier of every collection. *)
Definition fresh_id (s : store) : ObjectId :=
  N.succ (map_fold (λ (_ : string) docs acc, N.max (max_id docs) acc) 0%N s).

Definition assigned_id (r : doc) (s : store) : ObjectId :=
  match r !! "id" with
  | Some (VOid o) => o
  | _ => fresh_id s
  end.

(** The record as it is kept in the collection: the candidate with its
    assigned identifier. *)
Definition stored_as (r : doc) (s : store) : doc :=
  <["id" := VOid (assigned_id r s)]> r.

(** Modelled from the spec: [insert(entityType, record)] of the storage
    layer, which is the document store behind the [Document] base class
    and not part of [mongomodels.py].  The record is validated first; a
    record that collides with a stored one on the identifier or on a
    declared uniqueness constraint is rejected with [DuplicateKeyError]
    and the store is left as it was; otherwise the record is appended to
    the collection of its class and the assigned identifier returned.  A
    constraint compares the values of all its fields, an absent field
    counting as a value of its own. *)
Definition insert (E : document_class) (r : doc) (s : store)
  : result (ObjectId * store) :=
  match validate E r with
  | Raise e => Raise e
  | Ok _ =>
      if duplicate E r (documents E s) then Raise DuplicateKeyError
      else Ok (assigned_id r s,
               <[collection E := (documents E s ++ [stored_as r s])%list]> s)
  end.

End Storage.

(** ** Index entries *)

(** An entry of [meta]'s [indexes] names an attribute, optionally behind
    one character that selects the kind of index ([#] hashed, [-]
    descending, [+] ascending, ...). *)
Definition index_key (entry : string) : string :=
  match entry with
  | EmptyString => EmptyString
  | String c rest =>
      if existsb (Ascii.eqb c) ["+"; "-"; "*"; "$"; "#"; "("; ")"]%char
      then rest else entry
  end.

(** The attribute names of a class, [id] included. *)
Definition attributes (E : document_class) : list string := (all_fields E).*1.

(** The names of the fields a class declares as required. *)
Definition required_fields (E : document_class) : list string :=
  (List.filter (λ nf : string * field, required (opts nf.2)) (fields E)).*1.

(** ** Sample records *)

Module Samples.
(** A stand-in for the builtin [hash]: strings hash to their length,
    anything else is rejected. *)
Definition length_hash (v : value) : result Z :=
  match v with
  | VStr s => Ok (Z.of_nat (String.length s))
  | _ => Raise TypeError
  end.

Definition ann : doc :=
  {[ "name" := VStr "Ann"; "email" := VStr "ann@example.org";
     "username" := VStr "ann" ]}.
Definition ann' : doc :=
  {[ "name" := VStr "Ann"; "email" := VStr "ann@example.org";
     "username" := VStr "annie" ]}.

Definition ab_c : doc := {[ "name" := VStr "ab"; "email" := VStr "c" ]}.
Definition a_bc : doc := {[ "name" := VStr "a"; "email" := VStr "bc" ]}.

Definition file_action (m : string) : doc :=
  {[ "projectId" := VOid 1%N; "fileId" := VOid 7%N;
     "revisionHash" := VStr "abc123"; "mode" := VStr m ]}.

Definition commit : doc :=
  {[ "projectId" := VOid 1%N; "revisionHash" := VStr "abc123" ]}.
Definition commit' : doc :=
  {[ "projectId" := VOid 1%N; "revisionHash" := VStr "abc123";
     "message" := VStr "same key, other message" ]}.

Definition event : doc :=
  {[ "system_id" := VStr "e-1"; "status" := VStr "deleted" ]}.

Definition issue : doc := {[ "title" := VStr "crash on start" ]}.

Definition issue_of_project : doc :=
  {[ "project_id" := VOid 1%N; "title" := VStr "crash on start" ]}.

Definition ann_stored : object :=
  {| address := 1; attrs := <["id" := VOid 1%N]> ann |}.
Definition ann'_stored : object :=
  {| address := 2; attrs := <["id" := VOid 2%N]> ann' |}.

Definition hunk : doc :=
  {[ "new_start" := VInt 1; "new_lines" := VInt 2; "old_start" := VInt 1;
     "old_lines" := VInt 0; "content" := VStr "+a" ]}.

Definition file (path name : string) : doc :=
  {[ "projectId" := VOid 1%N; "path" := VStr path; "name" := VStr name ]}.

(** The builtin [str] on the values the samples use. *)
Definition str (v : option value) : string :=
  match v with
  | None => "None"
  | Some (VStr s) => s
  | Some (VBool true) => "True"
  | Some (VBool false) => "False"
  | Some (VList []) => "[]"
  | Some _ => "<object>"
  end.

Definition labelled_issue (label : value) : doc :=
  {[ "project_id" := VOid 1%N; "title" := VStr "crash on start";
     "labels" := VList [VStr "bug"; label] ]}.

Definition long_hash : string :=
  "0123456789abcdef0123456789abcdef0123456789abcdef0123".

Definition commit_with_parent (parent : string) : doc :=
  {[ "projectId" := VOid 1%N; "revisionHash" := VStr "abc123";
     "parents" := VList [VStr parent] ]}.
End Samples.

(** * Properties *)

(** ** Equality of values *)

(** Induction over values that reaches inside lists and dictionaries. *)
Section value_nested_ind.
Variable P : value → Prop.
Hypothesis HStr : ∀ s, P (VStr s).
Hypothesis HInt : ∀ n, P (VInt n).
Hypothesis HBool : ∀ b, P (VBool b).
Hypothesis HOid : ∀ o, P (VOid o).
Hypothesis HDate : ∀ t, P (VDate t).
Hypothesis HList : ∀ l, Forall P l → P (VList l).
Hypothesis HDict : ∀ d, Forall (λ kv, P kv.2) d → P (VDict d).

Fixpoint value_nested_ind (v : value) : P v :=
  match v with
  | VStr s => HStr s
  | VInt n => HInt n
  | VBool b => HBool b
  | VOid o => HOid o
  | VDate t => HDate t
  | VList l =>
      HList l ((fix go (l : list value) : Forall P l :=
                  match l with
                  | [] => @List.Forall_nil _ P
                  | x :: l' => @List.Forall_cons _ P x l' (value_nested_ind x) (go l')
                  end) l)
  | VDict d =>
      HDict d ((fix go (d : list (string * value)) : Forall (λ kv, P kv.2) d :=
                  match d with
                  | [] => @List.Forall_nil _ (λ kv, P kv.2)
                  | kv :: d' =>
                      @List.Forall_cons _ (λ kv, P kv.2) kv d'
                        (value_nested_ind kv.2) (go d')
                  end) d)
  end.
End value_nested_ind.

Lemma value_eqb_eq (a b : value) : value_eqb a b = true ↔ a = b.
Proof.
  revert b. induction a as [s|n|x|o|t|l IH|d IH] using value_nested_ind;
    intros [s'|n'|x'|o'|t'|l'|d']; simpl;
    try (rewrite bool_decide_eq_true; split; congruence);
    try (split; [discriminate | congruence]).
  - revert l'. induction IH as [|x l Hx _ IHl]; intros [|y l'];
      try (split; [done || discriminate | done || congruence]).
    rewrite andb_true_iff, Hx. specialize (IHl l'). split.
    + intros [-> H]. apply IHl in H. congruence.
    + intros [= -> ->]. split; [done|]. by apply IHl.
  - revert d'. induction IH as [|[k x] d Hx _ IHd]; intros [|[k' y] d'];
      try (split; [done || discriminate | done || congruence]).
    simpl in Hx. rewrite !andb_true_iff, bool_decide_eq_true, Hx.
    specialize (IHd d'). split.
    + intros [[-> ->] H]. apply IHd in H. congruence.
    + intros [= -> -> ->]. split; [done|]. by apply IHd.
Qed.

Lemma attr_eqb_eq (a b : option value) : attr_eqb a b = true ↔ a = b.
Proof.
  destruct a as [x|], b as [y|]; simpl; try (split; [discriminate|congruence]).
  - rewrite value_eqb_eq. split; congruence.
  - done.
Qed.

Lemma same_key_eq (ix : list string) (r d : doc) :
  Storage.same_key ix r d = true ↔ Storage.key_values ix r = Storage.key_values ix d.
Proof.
  unfold Storage.same_key, Storage.key_values.
  induction ix as [|f ix IH]; simpl; [done|].
  rewrite andb_true_iff, attr_eqb_eq. split.
  - intros [-> H]. f_equal. by apply IH.
  - intros [= -> H]. split; [done|]. by apply IH.
Qed.


(** ** Validation, field by field *)

Lemma offending_nil (E : document_class) (r : doc) :
  offending E r = [] ↔ fields_valid_except E [] r = true.
Proof.
  unfold offending, fields_valid_except.
  induction (all_fields E) as [|nf l IH]; simpl; [done|].
  destruct (check_field nf.2 (r !! nf.1)); simpl.
  - exact IH.
  - split; discriminate.
Qed.

Lemma validate_ok (E : document_class) (r : doc) :
  validate E r = Ok tt ↔ fields_valid_except E [] r = true.
Proof.
  rewrite <- offending_nil. unfold validate.
  destruct (offending E r); split; congruence.
Qed.

Lemma offending_elem (E : document_class) (r : doc) (n : string) :
  n ∈ offending E r ↔
  ∃ f, (n, f) ∈ all_fields E ∧ check_field f (r !! n) = false.
Proof.
  unfold offending. rewrite list_elem_of_fmap. split.
  - intros [[n' f] [-> H]]. apply list_elem_of_In, filter_In in H as [H1 H2].
    exists f. split; [by apply list_elem_of_In|]. by apply negb_true_iff.
  - intros (f & H1 & H2). exists (n, f). split; [done|].
    apply list_elem_of_In, filter_In. split; [by apply list_elem_of_In|].
    simpl. by rewrite H2.
Qed.

(** A record with an offending field is rejected, and the error names
    that field. *)
Lemma validate_rejects (E : document_class) (r : doc) (n : string) (f : field) :
  (n, f) ∈ all_fields E → check_field f (r !! n) = false →
  ∃ bad, validate E r = Raise (ValidationError bad) ∧ n ∈ bad.
Proof.
  intros Hin Hf. assert (Hn : n ∈ offending E r).
  { apply offending_elem. eauto. }
  unfold validate. destruct (offending E r) as [|x l] eqn:Ho.
  - by apply elem_of_nil in Hn.
  - eauto.
Qed.

Lemma fields_valid_except_spec (E : document_class) (skip : list string) (r : doc) :
  fields_valid_except E skip r = true ↔
  ∀ n f, (n, f) ∈ all_fields E → n ∉ skip → check_field f (r !! n) = true.
Proof.
  unfold fields_valid_except. rewrite forallb_forall. split.
  - intros H n f Hin Hs. apply list_elem_of_In, H in Hin. simpl in Hin.
    apply orb_true_iff in Hin as [Hin|Hin]; [|done].
    by apply bool_decide_eq_true in Hin.
  - intros H [n f] Hin. simpl. apply list_elem_of_In in Hin.
    destruct (bool_decide (n ∈ skip)) eqn:Hd; [done|].
    apply bool_decide_eq_false in Hd. simpl. by apply H.
Qed.

(** Writing one attribute: its field is fine afterwards when the new
    value passes the check, and no other field is touched. *)
Lemma fields_valid_insert (E : document_class) (skip : list string) (r : doc)
    (k : string) (v : value) :
  (∀ f, (k, f) ∈ all_fields E → field_accepts f v = true) →
  fields_valid_except E (k :: skip) r = true →
  fields_valid_except E skip (<[k := v]> r) = true.
Proof.
  intros Hk Hr. apply fields_valid_except_spec.
  intros n f Hin Hs. destruct (decide (n = k)) as [->|Hne].
  - rewrite lookup_insert_eq. simpl. by apply Hk.
  - rewrite lookup_insert_ne by done.
    eapply fields_valid_except_spec; [exact Hr|exact Hin|].
    rewrite elem_of_cons. tauto.
Qed.

(** Clearing one attribute is fine when its field is not required. *)
Lemma fields_valid_delete (E : document_class) (skip : list string) (r : doc)
    (k : string) :
  (∀ f, (k, f) ∈ all_fields E → required (opts f) = false) →
  fields_valid_except E (k :: skip) r = true →
  fields_valid_except E skip (delete k r) = true.
Proof.
  intros Hk Hr. apply fields_valid_except_spec.
  intros n f Hin Hs. destruct (decide (n = k)) as [->|Hne].
  - rewrite lookup_delete_eq. simpl. by rewrite (Hk f Hin).
  - rewrite lookup_delete_ne by done.
    eapply fields_valid_except_spec; [exact Hr|exact Hin|].
    rewrite elem_of_cons. tauto.
Qed.

(** An absent attribute of a field that is not required needs no check. *)
Lemma fields_valid_absent (E : document_class) (skip : list string) (r : doc)
    (k : string) :
  (∀ f, (k, f) ∈ all_fields E → required (opts f) = false) →
  r !! k = None →
  fields_valid_except E (k :: skip) r = true →
  fields_valid_except E skip r = true.
Proof.
  intros Hk Hnone Hr. apply fields_valid_except_spec.
  intros n f Hin Hs. destruct (decide (n = k)) as [->|Hne].
  - rewrite Hnone. simpl. by rewrite (Hk f Hin).
  - eapply fields_valid_except_spec; [exact Hr|exact Hin|].
    rewrite elem_of_cons. tauto.
Qed.

(** Resolve which declaration a concrete field name refers to. *)
Ltac declared H :=
  apply list_elem_of_In in H; cbn in H;
  repeat (destruct H as [H|H]; [try discriminate H|]);
  try contradiction; try (injection H as <-).

Ltac one_of H :=
  apply list_elem_of_In in H; cbn in H;
  repeat (destruct H as [H|H]; [subst|]); try contradiction.

(** Run through the declarations of a concrete field list. *)
Ltac field_in H :=
  apply list_elem_of_In in H; cbn in H;
  repeat (destruct H as [H|H]; [injection H as <- <-|]); try contradiction.

(** ** The catalog and its keys *)

(** The constraint each class declares, in source order. *)
Lemma declared_uniqueness_keys :
  (λ E, (cls_name E, uniqueness_key E)) <$> catalog =
  [("FileAction", ["revisionHash"; "projectId"; "fileId"]);
   ("Hunk", ["id"]);
   ("File", ["path"; "projectId"]);
   ("Tag", ["projectId"; "name"]);
   ("People", ["email"; "name"]);
   ("Project", ["url"]);
   ("Commit", ["projectId"; "revisionHash"]);
   ("TestState", ["file_id"; "commit_id"; "long_name"]);
   ("Issue", ["system_id"; "project_id"]);
   ("Event", ["system_id"]);
   ("IssueComment", ["system_id"]);
   ("Import", ["commitId"; "fileId"]);
   ("NodeTypeCount", ["commitId"; "fileId"])].
Proof. reflexivity. Qed.

Lemma sub_spec (xs ys : list string) :
  sub xs ys = true ↔ ∀ x, x ∈ xs → x ∈ ys.
Proof.
  unfold sub. rewrite forallb_forall. split.
  - intros H x Hx. apply list_elem_of_In, H in Hx.
    by apply bool_decide_eq_true in Hx.
  - intros H x Hx. apply bool_decide_eq_true, H. by apply list_elem_of_In.
Qed.

(** C2: for every class of the catalog, each field of the uniqueness key
    (and of every declared uniqueness constraint) is a field of the
    declared shard key. *)
Theorem shard_key_covers_uniqueness_key (E : document_class) :
  E ∈ catalog →
  (∀ f, f ∈ uniqueness_key E → f ∈ shard_key E) ∧
  (∀ ix f, ix ∈ unique_indexes E → f ∈ ix → f ∈ shard_key E).
Proof.
  intros HE.
  assert (Hall : forallb (λ E, sub (uniqueness_key E) (shard_key E)
                               && forallb (λ ix, sub ix (shard_key E))
                                          (unique_indexes E)) catalog = true)
    by reflexivity.
  rewrite forallb_forall in Hall. apply list_elem_of_In, Hall in HE.
  apply andb_true_iff in HE as [Hk Hix]. split.
  - by apply sub_spec.
  - intros ix f Hin Hf. rewrite forallb_forall in Hix.
    apply list_elem_of_In, Hix in Hin. by apply (proj1 (sub_spec _ _) Hin).
Qed.

Lemma shard_key_covers_uniqueness_key_FileAction :
  FileAction.cls ∈ catalog ∧
  "fileId" ∈ uniqueness_key FileAction.cls ∧
  "fileId" ∈ shard_key FileAction.cls.
Proof.
  assert (HE : FileAction.cls ∈ catalog) by (apply list_elem_of_In; simpl; tauto).
  assert (Hf : "fileId" ∈ uniqueness_key FileAction.cls)
    by (apply list_elem_of_In; simpl; tauto).
  split; [exact HE|]. split; [exact Hf|].
  exact (proj1 (shard_key_covers_uniqueness_key FileAction.cls HE) "fileId" Hf).
Defined.

(** C7, as the module has it: the catalog consists of exactly thirteen
    record types with pairwise distinct names, each mapped to a logical
    collection of its own. *)
Theorem catalog_has_thirteen_classes :
  length catalog = 13 ∧
  NoDup (cls_name <$> catalog) ∧
  NoDup (Storage.collection <$> catalog).
Proof.
  split; [reflexivity|].
  split; apply (bool_decide_unpack _); vm_compute; exact I.
Qed.

(** C7, as stated (twelve record types), does not hold. *)
Lemma catalog_is_not_twelve : length catalog ≠ 12.
Proof. discriminate. Qed.

(** ** Methods *)

(** C10: converting a Commit record to a string gives the empty string,
    whatever its fields hold. *)
Theorem Commit_str_is_empty (self : doc) : Commit.__str__ self = "".
Proof. reflexivity. Qed.

Section People_identity.
Variable hash : value → result Z.

(** C5, as the module has it: two People records with the same name and
    the same email have the same hash, the [hash] of name+email, whatever
    their usernames; the comparison is the inherited one, so they are
    unequal as soon as their [id]s differ. *)
Theorem People_same_name_email_hash_alike (p q : object) :
  attrs p !! "name" = attrs q !! "name" →
  attrs p !! "email" = attrs q !! "email" →
  People.__hash__ hash (attrs p) = People.__hash__ hash (attrs q) ∧
  (∀ n e, attrs p !! "name" = Some (VStr n) →
          attrs p !! "email" = Some (VStr e) →
          People.__hash__ hash (attrs q) = hash (VStr (n ++ e))) ∧
  (attrs p !! "id" ≠ attrs q !! "id" → Document.__eq__ p q = false).
Proof.
  intros Hn He. split; [|split].
  - unfold People.__hash__. by rewrite Hn, He.
  - intros n e Hpn Hpe. unfold People.__hash__.
    by rewrite <- Hn, <- He, Hpn, Hpe.
  - intros Hid. unfold Document.__eq__.
    destruct (attrs q !! "id") as [v|] eqn:Hq.
    + apply not_true_iff_false. by intros H%attr_eqb_eq.
    + by destruct (attrs p !! "id").
Qed.

(** C9: the records (name "ab", email "c") and (name "a", email "bc")
    are valid People records with different (name, email) pairs, and
    both hash to [hash "abc"]. *)
Theorem People_hash_identifies_distinct_pairs :
  validate People.cls Samples.ab_c = Ok tt ∧
  validate People.cls Samples.a_bc = Ok tt ∧
  (Samples.ab_c !! "name", Samples.ab_c !! "email")
    ≠ (Samples.a_bc !! "name", Samples.a_bc !! "email") ∧
  People.__hash__ hash Samples.ab_c = hash (VStr "abc") ∧
  People.__hash__ hash Samples.a_bc = hash (VStr "abc") ∧
  People.__hash__ hash Samples.ab_c = People.__hash__ hash Samples.a_bc.
Proof.
  repeat split; try reflexivity. vm_compute. discriminate.
Qed.
End People_identity.

Lemma People_same_name_email_hash_alike_ann :
  attrs Samples.ann_stored !! "username" ≠ attrs Samples.ann'_stored !! "username" ∧
  People.__hash__ Samples.length_hash (attrs Samples.ann_stored)
    = People.__hash__ Samples.length_hash (attrs Samples.ann'_stored) ∧
  People.__hash__ Samples.length_hash (attrs Samples.ann'_stored) = Ok 18%Z ∧
  Document.__eq__ Samples.ann_stored Samples.ann'_stored = false.
Proof.
  pose proof (People_same_name_email_hash_alike Samples.length_hash
                Samples.ann_stored Samples.ann'_stored eq_refl eq_refl)
    as (Hhash & Hstr & Heq).
  split; [vm_compute; discriminate|]. split; [exact Hhash|]. split.
  - exact (Hstr "Ann" "ann@example.org" eq_refl eq_refl).
  - apply Heq. vm_compute. discriminate.
Defined.

(** C5, as stated, does not hold: two stored People records with the same
    name and email, hence the same hash, do not compare as equal. *)
Lemma People_same_name_email_compare_unequal :
  attrs Samples.ann_stored !! "name" = attrs Samples.ann'_stored !! "name" ∧
  attrs Samples.ann_stored !! "email" = attrs Samples.ann'_stored !! "email" ∧
  People.__hash__ Samples.length_hash (attrs Samples.ann_stored)
    = People.__hash__ Samples.length_hash (attrs Samples.ann'_stored) ∧
  Document.__eq__ Samples.ann_stored Samples.ann'_stored = false.
Proof. repeat split. Qed.

(** ** Validation of FileAction, Event and Issue records *)

Lemma FileAction_mode_accepts (m : string) :
  m ∈ FileAction.MODES →
  ∀ f, ("mode", f) ∈ all_fields FileAction.cls → field_accepts f (VStr m) = true.
Proof.
  intros Hm f Hf. declared Hf. one_of Hm; reflexivity.
Qed.

(** C3: a FileAction record whose mode is not one of A, M, D, C, T is
    rejected with a ValidationError that names [mode]; with any of the
    five modes the record is accepted, provided its other fields are
    valid (the required ones present, the optional ones absent or of the
    class of their field). *)
Theorem FileAction_mode_enumerated (r : doc) :
  ((∀ m, m ∈ FileAction.MODES → r !! "mode" ≠ Some (VStr m)) →
   ∃ bad, validate FileAction.cls r = Raise (ValidationError bad) ∧ "mode" ∈ bad)
  ∧
  (∀ m, m ∈ FileAction.MODES →
        fields_valid_except FileAction.cls ["mode"] r = true →
        validate FileAction.cls (<["mode" := VStr m]> r) = Ok tt).
Proof.
  split.
  - intros Hout. apply (validate_rejects _ _ "mode" FileAction.mode).
    + apply list_elem_of_In. cbn. tauto.
    + destruct (r !! "mode") as [v|] eqn:Hv; [|reflexivity].
      destruct v as [s| | | | | |]; try reflexivity.
      cbn. destruct (bool_decide (s ∈ FileAction.MODES)) eqn:Hs; [|reflexivity].
      apply bool_decide_eq_true in Hs. by destruct (Hout s Hs).
  - intros m Hm Hr. apply validate_ok, fields_valid_insert; [|exact Hr].
    by apply FileAction_mode_accepts.
Qed.

Lemma FileAction_mode_enumerated_X_then_C :
  (∃ bad, validate FileAction.cls (Samples.file_action "X")
          = Raise (ValidationError bad) ∧ "mode" ∈ bad) ∧
  validate FileAction.cls (<["mode" := VStr "C"]> (Samples.file_action "X")) = Ok tt.
Proof.
  split.
  - apply (proj1 (FileAction_mode_enumerated (Samples.file_action "X"))).
    intros m Hm. one_of Hm; vm_compute; discriminate.
  - apply (proj2 (FileAction_mode_enumerated (Samples.file_action "X")) "C").
    + apply list_elem_of_In. cbn. tauto.
    + reflexivity.
Defined.

(** C4: validation does not look at the pairing of [oldFilePathId] with
    the mode.  Whatever the mode among A, M, D, C, T, a record whose other
    fields are valid passes both without an [oldFilePathId] and with
    one. *)
Theorem oldFilePathId_convention_unchecked (r : doc) (m : string) :
  m ∈ FileAction.MODES →
  fields_valid_except FileAction.cls ["oldFilePathId"; "mode"] r = true →
  validate FileAction.cls (<["mode" := VStr m]> (delete "oldFilePathId" r)) = Ok tt
  ∧
  ∀ o, validate FileAction.cls
         (<["mode" := VStr m]> (<["oldFilePathId" := VOid o]> r)) = Ok tt.
Proof.
  intros Hm Hr. split; [|intros o]; apply validate_ok, fields_valid_insert;
    try by apply FileAction_mode_accepts.
  - apply fields_valid_delete; [|exact Hr]. intros f Hf. by declared Hf.
  - apply fields_valid_insert; [|exact Hr]. intros f Hf. by declared Hf.
Qed.

Lemma oldFilePathId_convention_unchecked_copy_and_add :
  Samples.file_action "C" !! "oldFilePathId" = None ∧
  validate FileAction.cls (Samples.file_action "C") = Ok tt ∧
  validate FileAction.cls
    (<["mode" := VStr "A"]> (<["oldFilePathId" := VOid 9%N]> (Samples.file_action "C")))
    = Ok tt.
Proof.
  assert (HC : "C" ∈ FileAction.MODES) by (apply list_elem_of_In; cbn; tauto).
  assert (HA : "A" ∈ FileAction.MODES) by (apply list_elem_of_In; cbn; tauto).
  split; [reflexivity|]. split.
  - exact (proj1 (oldFilePathId_convention_unchecked
                    (Samples.file_action "C") "C" HC eq_refl)).
  - exact (proj2 (oldFilePathId_convention_unchecked
                    (Samples.file_action "C") "A" HA eq_refl) 9%N).
Defined.

(** Every kind listed in [STATI] is an accepted status. *)
Lemma Event_status_accepts_listed (k : string) :
  k ∈ Event.STATI.*1 →
  check_field (StringField (MaxLength 50 (Choices (Pairs Event.STATI) kw)))
              (Some (VStr k)) = true.
Proof.
  intros Hk. one_of Hk; reflexivity.
Qed.

(** C6: an Event record whose status is set to anything but one of the
    kinds listed in [STATI] is rejected with a ValidationError naming
    [status], and an insert of it stores nothing. *)
Theorem Event_status_enumerated (r : doc) (v : value) (s : Storage.store) :
  r !! "status" = Some v →
  (∀ k, k ∈ Event.STATI.*1 → v ≠ VStr k) →
  ∃ bad, validate Event.cls r = Raise (ValidationError bad) ∧
         "status" ∈ bad ∧
         Storage.insert Event.cls r s = Raise (ValidationError bad).
Proof.
  intros Hv Hout.
  destruct (validate_rejects Event.cls r "status"
              (StringField (MaxLength 50 (Choices (Pairs Event.STATI) kw))))
    as (bad & Hbad & Hin).
  - apply list_elem_of_In. cbn. tauto.
  - rewrite Hv. destruct v as [k| | | | | |]; try reflexivity.
    change (bool_decide (k ∈ Event.STATI.*1)
            && bool_decide (String.length k ≤ 50)%nat = false).
    destruct (bool_decide (k ∈ Event.STATI.*1)) eqn:Hk; [|reflexivity].
    apply bool_decide_eq_true in Hk. by destruct (Hout k Hk).
  - exists bad. repeat split; try done. unfold Storage.insert. by rewrite Hbad.
Qed.

Lemma Event_status_enumerated_deleted :
  ∃ bad, validate Event.cls Samples.event = Raise (ValidationError bad) ∧
         "status" ∈ bad ∧
         Storage.insert Event.cls Samples.event ∅ = Raise (ValidationError bad).
Proof.
  apply (Event_status_enumerated Samples.event (VStr "deleted") ∅).
  - reflexivity.
  - intros k Hk. one_of Hk; discriminate.
Defined.

(** C8, as the module has it: [(system_id, project_id)] is the uniqueness
    key of Issue and no field of Issue is declared required.  A missing
    [system_id] is never an offence, and a record without it is accepted
    when its other fields are valid; [project_id], named in the
    [unique_with] of [system_id], is required all the same, and a record
    without it is rejected with an error naming [project_id]. *)
Theorem Issue_project_id_required_system_id_not (r : doc) :
  uniqueness_key Issue.cls = ["system_id"; "project_id"] ∧
  (∀ n f, (n, f) ∈ fields Issue.cls → required (opts f) = false) ∧
  (r !! "system_id" = None →
   ("system_id" ∉ offending Issue.cls r) ∧
   (fields_valid_except Issue.cls ["system_id"] r = true →
    validate Issue.cls r = Ok tt)) ∧
  (r !! "project_id" = None →
   ∃ bad, validate Issue.cls r = Raise (ValidationError bad) ∧ "project_id" ∈ bad).
Proof.
  split; [reflexivity|]. split; [|split].
  - intros n f Hf. field_in Hf; reflexivity.
  - intros Hs. split.
    + intros (f & Hin & Hf)%offending_elem. rewrite Hs in Hf. by declared Hin.
    + intros Hr. apply validate_ok.
      apply (fields_valid_absent _ _ _ "system_id"); [|done|done].
      intros f Hin. by declared Hin.
  - intros Hp.
    apply (validate_rejects Issue.cls r "project_id" (ObjectIdField (Required kw))).
    + apply list_elem_of_In. vm_compute. tauto.
    + by rewrite Hp.
Qed.

Lemma Issue_project_id_required_system_id_not_samples :
  Samples.issue_of_project !! "system_id" = None ∧
  validate Issue.cls Samples.issue_of_project = Ok tt ∧
  Samples.issue !! "project_id" = None ∧
  ∃ bad, validate Issue.cls Samples.issue = Raise (ValidationError bad) ∧
         "project_id" ∈ bad.
Proof.
  split; [reflexivity|]. split; [|split; [reflexivity|]].
  - exact (proj2 (proj1 (proj2 (proj2
             (Issue_project_id_required_system_id_not Samples.issue_of_project)))
             eq_refl) eq_refl).
  - exact (proj2 (proj2 (proj2
             (Issue_project_id_required_system_id_not Samples.issue))) eq_refl).
Defined.

(** C8, as stated, does not hold: an Issue record with neither
    [system_id] nor [project_id] is rejected, for [project_id]. *)
Lemma Issue_without_key_fields_is_rejected :
  Samples.issue !! "system_id" = None ∧
  Samples.issue !! "project_id" = None ∧
  validate Issue.cls Samples.issue = Raise (ValidationError ["project_id"]).
Proof. repeat split. Qed.

(** ** Uniqueness on the write path *)

Lemma documents_insert (E : document_class) (s : Storage.store) (docs : list doc) :
  Storage.documents E (<[Storage.collection E := docs]> s) = docs.
Proof. unfold Storage.documents. by rewrite lookup_insert_eq. Qed.

Lemma stored_as_id (r : doc) (s : Storage.store) :
  Storage.stored_as r s !! "id" = Some (VOid (Storage.assigned_id r s)).
Proof. unfold Storage.stored_as. by rewrite lookup_insert_eq. Qed.

(** A candidate that agrees with a stored record on the uniqueness key of
    the class is a duplicate. *)
Lemma duplicate_of_stored (E : document_class) (r d : doc) (docs : list doc) :
  d ∈ docs →
  is_Some (d !! "id") →
  Storage.key_values (uniqueness_key E) r = Storage.key_values (uniqueness_key E) d →
  Storage.duplicate E r docs = true.
Proof.
  intros Hd [v Hid] Hkey. unfold Storage.duplicate, uniqueness_key in *.
  apply orb_true_iff. destruct (unique_indexes E) as [|ix rest].
  - left. injection Hkey as Hkey. unfold Storage.id_taken.
    rewrite Hkey, Hid. apply existsb_exists. exists d.
    split; [by apply list_elem_of_In|]. by apply attr_eqb_eq.
  - right. apply existsb_exists. exists ix. split; [by left|].
    apply existsb_exists. exists d. split; [by apply list_elem_of_In|].
    by apply same_key_eq.
Qed.

(** The key of a catalog class is made of attributes the class has. *)
Lemma uniqueness_key_declared (E : document_class) :
  E ∈ catalog → ∀ f, f ∈ uniqueness_key E → f ∈ (all_fields E).*1.
Proof.
  intros HE.
  assert (Hall : forallb (λ E, sub (uniqueness_key E) (all_fields E).*1) catalog = true)
    by reflexivity.
  rewrite forallb_forall in Hall. apply list_elem_of_In, Hall in HE.
  by apply sub_spec.
Qed.

(** C1: for every class of the catalog, once a valid record has been
    inserted (the insert succeeds when the record collides with nothing
    in the store), inserting a valid record with the same values on the
    uniqueness key of the class fails with DuplicateKeyError. *)
Theorem duplicate_key_rejected (E : document_class) (s : Storage.store) (r1 r2 : doc) :
  E ∈ catalog →
  validate E r1 = Ok tt →
  Storage.duplicate E r1 (Storage.documents E s) = false →
  validate E r2 = Ok tt →
  Storage.key_values (uniqueness_key E) r2
    = Storage.key_values (uniqueness_key E) (Storage.stored_as r1 s) →
  (∀ f, f ∈ uniqueness_key E → f ∈ (all_fields E).*1) ∧
  ∃ i s1,
    Storage.insert E r1 s = Ok (i, s1) ∧
    Storage.stored_as r1 s ∈ Storage.documents E s1 ∧
    Storage.insert E r2 s1 = Raise DuplicateKeyError.
Proof.
  intros HE Hv1 Hfree Hv2 Hkey. split; [by apply uniqueness_key_declared|].
  eexists _, _. split; [|split].
  - unfold Storage.insert. rewrite Hv1, Hfree. reflexivity.
  - rewrite documents_insert. apply elem_of_app. right. by apply list_elem_of_singleton.
  - unfold Storage.insert. rewrite Hv2, documents_insert.
    rewrite (duplicate_of_stored E r2 (Storage.stored_as r1 s)); [done| | |done].
    + apply elem_of_app. right. by apply list_elem_of_singleton.
    + rewrite stored_as_id. eauto.
Qed.

Lemma duplicate_key_rejected_commit :
  ∃ i s1,
    Storage.insert Commit.cls Samples.commit ∅ = Ok (i, s1) ∧
    Storage.stored_as Samples.commit ∅ ∈ Storage.documents Commit.cls s1 ∧
    Storage.insert Commit.cls Samples.commit' s1 = Raise DuplicateKeyError.
Proof.
  assert (HE : Commit.cls ∈ catalog) by (apply list_elem_of_In; cbn; tauto).
  exact (proj2 (duplicate_key_rejected Commit.cls ∅ Samples.commit Samples.commit'
                  HE eq_refl eq_refl eq_refl eq_refl)).
Defined.

(** Two files of one project are told apart by their path alone. *)
Example File_same_path_twice :
  ∃ i s1,
    Storage.insert File.cls (Samples.file "/src/a.py" "a.py") ∅ = Ok (i, s1) ∧
    Storage.insert File.cls (Samples.file "/src/a.py" "b.py") s1
      = Raise DuplicateKeyError ∧
    ∃ j s2,
      Storage.insert File.cls (Samples.file "/src/b.py" "a.py") s1 = Ok (j, s2) ∧
      i ≠ j.
Proof.
  eexists _, _. split; [reflexivity|]. split; [reflexivity|].
  eexists _, _. split; [reflexivity|]. vm_compute. discriminate.
Qed.

(** Hunk declares no constraint: two candidates with the same content and
    no identifier are both stored, under different identifiers. *)
Example Hunk_same_content_twice :
  ∃ i s1 j s2,
    Storage.insert Hunk.cls Samples.hunk ∅ = Ok (i, s1) ∧
    Storage.insert Hunk.cls Samples.hunk s1 = Ok (j, s2) ∧
    i ≠ j ∧
    Storage.insert Hunk.cls (<["id" := VOid i]> Samples.hunk) s2
      = Raise DuplicateKeyError.
Proof.
  eexists _, _, _, _. split; [reflexivity|]. split; [reflexivity|].
  split; [vm_compute; discriminate|reflexivity].
Qed.

(** * Further properties of the catalog *)

(** X1: the shard key of every class is its uniqueness key (the first
    constraint the class declares, [id] for Hunk), field for field and in
    the same order; any further constraint the class declares has the
    fields of the shard key, in some order. *)
Theorem shard_key_is_uniqueness_key (E : document_class) :
  E ∈ catalog →
  shard_key E = uniqueness_key E ∧
  ∀ ix, ix ∈ unique_indexes E → ix ≡ₚ shard_key E.
Proof.
  intros HE. split.
  - one_of HE; reflexivity.
  - intros ix Hix. one_of HE; one_of Hix; try reflexivity.
    all: apply Permutation_swap.
Qed.

Lemma shard_key_is_uniqueness_key_Import :
  shard_key Import_.cls = ["commitId"; "fileId"] ∧
  shard_key Import_.cls = uniqueness_key Import_.cls ∧
  ["fileId"; "commitId"] ≡ₚ shard_key Import_.cls.
Proof.
  assert (HE : Import_.cls ∈ catalog) by (apply list_elem_of_In; cbn; tauto).
  split; [reflexivity|]. split.
  - exact (proj1 (shard_key_is_uniqueness_key Import_.cls HE)).
  - apply (proj2 (shard_key_is_uniqueness_key Import_.cls HE)).
    apply list_elem_of_In. cbn. tauto.
Defined.

(** X2: every entry of every declared index names an attribute of its class,
    once the character selecting the kind of index is taken off. *)
Theorem index_entries_are_attributes (E : document_class) (ix : list string)
    (entry : string) :
  E ∈ catalog → ix ∈ indexes E → entry ∈ ix →
  index_key entry ∈ attributes E.
Proof.
  intros HE Hix He.
  one_of HE; one_of Hix; one_of He;
    apply (bool_decide_unpack _); vm_compute; exact I.
Qed.

Lemma index_entries_are_attributes_Event :
  index_key "-created_at" = "created_at" ∧
  index_key "-created_at" ∈ attributes Event.cls.
Proof.
  split; [reflexivity|].
  apply (index_entries_are_attributes Event.cls ["issue_id"; "-created_at"]).
  - apply list_elem_of_In. cbn. tauto.
  - apply list_elem_of_In. cbn. tauto.
  - apply list_elem_of_In. cbn. tauto.
Defined.

(** X3: a [unique_with] option names other fields declared by the same
    class, and every field of a shard key is an attribute of the class. *)
Theorem constraint_fields_are_declared (E : document_class) :
  E ∈ catalog →
  (∀ n f c, (n, f) ∈ fields E → c ∈ unique_with (opts f) →
            c ≠ n ∧ c ∈ (fields E).*1) ∧
  (∀ k, k ∈ shard_key E → k ∈ attributes E).
Proof.
  intros HE. split.
  - intros n f c Hf Hc.
    one_of HE; field_in Hf; one_of Hc;
      (split; [discriminate|apply (bool_decide_unpack _); vm_compute; exact I]).
  - intros k Hk.
    one_of HE; one_of Hk; apply (bool_decide_unpack _); vm_compute; exact I.
Qed.

Lemma constraint_fields_are_declared_TestState :
  "long_name" ∈ (fields TestState.cls).*1 ∧ "commit_id" ∈ attributes TestState.cls.
Proof.
  assert (HE : TestState.cls ∈ catalog) by (apply list_elem_of_In; cbn; tauto).
  split.
  - refine (proj2 (proj1 (constraint_fields_are_declared TestState.cls HE)
                     "file_id" _ "long_name" _ _)).
    + apply list_elem_of_In. cbn. left. reflexivity.
    + apply list_elem_of_In. cbn. tauto.
  - apply (proj2 (constraint_fields_are_declared TestState.cls HE)).
    apply list_elem_of_In. cbn. tauto.
Defined.

(** X4: a class never declares two different uniqueness constraints: where
    it declares two (Import and NodeTypeCount do, one from each field),
    they cover the same fields. *)
Theorem uniqueness_constraints_agree (E : document_class) (ix1 ix2 : list string) :
  E ∈ catalog → ix1 ∈ unique_indexes E → ix2 ∈ unique_indexes E →
  ix1 ≡ₚ ix2.
Proof.
  intros HE H1 H2.
  one_of HE; one_of H1; one_of H2; try reflexivity;
    first [apply Permutation_swap | symmetry; apply Permutation_swap].
Qed.

Lemma uniqueness_constraints_agree_Import :
  unique_indexes Import_.cls = [["commitId"; "fileId"]; ["fileId"; "commitId"]] ∧
  ["commitId"; "fileId"] ≡ₚ ["fileId"; "commitId"].
Proof.
  split; [reflexivity|].
  apply (uniqueness_constraints_agree Import_.cls).
  - apply list_elem_of_In. cbn. tauto.
  - apply list_elem_of_In. cbn. tauto.
  - apply list_elem_of_In. cbn. tauto.
Defined.

(** X5: the three issue-tracking classes declare no required field at all;
    in every other class each field of each uniqueness constraint is
    declared required. *)
Theorem key_fields_required_outside_issue_tracking (E : document_class) :
  E ∈ catalog →
  (E ∈ [Issue.cls; Event.cls; IssueComment.cls] → required_fields E = []) ∧
  (E ∉ [Issue.cls; Event.cls; IssueComment.cls] →
   ∀ ix n, ix ∈ unique_indexes E → n ∈ ix → n ∈ required_fields E).
Proof.
  intros HE. one_of HE; split.
  all: try (intros _; reflexivity).
  all: try (intros Hin; one_of Hin; discriminate Hin).
  all: try (intros Hout; exfalso; apply Hout; apply list_elem_of_In; cbn; tauto).
  all: intros _ ix n Hix Hn; one_of Hix; one_of Hn;
         apply (bool_decide_unpack _); vm_compute; exact I.
Qed.

Lemma key_fields_required_outside_issue_tracking_File :
  "projectId" ∈ required_fields File.cls.
Proof.
  assert (HE : File.cls ∈ catalog) by (apply list_elem_of_In; cbn; tauto).
  apply (proj2 (key_fields_required_outside_issue_tracking File.cls HE))
    with (ix := ["path"; "projectId"]).
  - intros Hin. one_of Hin; discriminate Hin.
  - apply list_elem_of_In. cbn. tauto.
  - apply list_elem_of_In. cbn. tauto.
Defined.

(** ** Further properties of validation *)

(** X6: the record without any attribute is rejected for exactly the
    fields declared required, listed in declaration order, and in Issue
    for [project_id], which the [unique_with] of [system_id] makes
    required; it is accepted by Event and IssueComment only. *)
Theorem empty_record_offends_required_fields (E : document_class) :
  E ∈ catalog →
  (E ≠ Issue.cls → offending E ∅ = required_fields E) ∧
  offending Issue.cls ∅ = ["project_id"] ∧
  (validate E ∅ = Ok tt ↔ E ∈ [Event.cls; IssueComment.cls]).
Proof.
  intros HE. split; [|split].
  - intros Hne. one_of HE; reflexivity.
  - reflexivity.
  - split.
    + intros Hv. one_of HE; try discriminate Hv; apply list_elem_of_In; cbn; tauto.
    + intros Hin. one_of Hin; reflexivity.
Qed.

Lemma empty_record_offends_required_fields_Hunk :
  offending Hunk.cls ∅
    = ["new_start"; "new_lines"; "old_start"; "old_lines"; "content"] ∧
  validate IssueComment.cls ∅ = Ok tt.
Proof.
  split.
  - refine (proj1 (empty_record_offends_required_fields Hunk.cls _) _).
    + apply list_elem_of_In. cbn. tauto.
    + discriminate.
  - refine (proj2 (proj2 (proj2 (empty_record_offends_required_fields
                                   IssueComment.cls _))) _).
    + apply list_elem_of_In. cbn. tauto.
    + apply list_elem_of_In. cbn. tauto.
Defined.

(** X7: wherever a field restricts its values by [choices], the allowed
    values are pairwise distinct and each of them is accepted by the
    field: none is ruled out by the [max_length] of the same field. *)
Theorem choices_fit_their_field (E : document_class) (n : string) (f : field)
    (c : choices_decl) :
  E ∈ catalog → (n, f) ∈ fields E → choices (opts f) = Some c →
  NoDup (choice_list c) ∧
  ∀ k, k ∈ choice_list c → field_accepts f (VStr k) = true.
Proof.
  intros HE Hf Hc.
  one_of HE; field_in Hf; try discriminate Hc; injection Hc as <-.
  all: split; [apply (bool_decide_unpack _); vm_compute; exact I|].
  all: intros k Hk; one_of Hk; reflexivity.
Qed.

Lemma choices_fit_their_field_Event :
  length (choice_list (Pairs Event.STATI)) = 37 ∧
  NoDup (choice_list (Pairs Event.STATI)) ∧
  field_accepts (StringField (MaxLength 50 (Choices (Pairs Event.STATI) kw)))
                (VStr "timeoriginalestimate") = true.
Proof.
  assert (HE : Event.cls ∈ catalog) by (apply list_elem_of_In; cbn; tauto).
  assert (Hf : ("status", StringField (MaxLength 50 (Choices (Pairs Event.STATI) kw)))
               ∈ fields Event.cls) by (apply list_elem_of_In; cbn; tauto).
  split; [reflexivity|]. split.
  - exact (proj1 (choices_fit_their_field Event.cls _ _ _ HE Hf eq_refl)).
  - apply (proj2 (choices_fit_their_field Event.cls _ _ _ HE Hf eq_refl)).
    apply list_elem_of_In. cbn. tauto.
Defined.

(** X8: a string longer than the [max_length] of its field is rejected, and
    so is a list holding a string longer than the [max_length] declared
    for the items; the error names the attribute. *)
Theorem max_length_enforced (E : document_class) (r : doc) (n : string)
    (o : options) (k : nat) (s : string) :
  max_length o = Some k → (k < String.length s)%nat →
  ((n, StringField o) ∈ all_fields E → r !! n = Some (VStr s) →
   ∃ bad, validate E r = Raise (ValidationError bad) ∧ n ∈ bad)
  ∧
  (∀ o' l, (n, ListField (StringField o) o') ∈ all_fields E →
           r !! n = Some (VList l) → VStr s ∈ l →
           ∃ bad, validate E r = Raise (ValidationError bad) ∧ n ∈ bad).
Proof.
  intros Hmax Hlen.
  assert (Hs : field_accepts (StringField o) (VStr s) = false).
  { simpl. unfold within_max_length. rewrite Hmax.
    apply andb_false_iff. right. apply bool_decide_eq_false. lia. }
  split.
  - intros Hin Hr. apply (validate_rejects E r n (StringField o) Hin).
    by rewrite Hr.
  - intros o' l Hin Hr Hl.
    apply (validate_rejects E r n (ListField (StringField o) o') Hin).
    rewrite Hr. simpl. apply andb_false_iff. right.
    apply not_true_iff_false. intros Hall. rewrite forallb_forall in Hall.
    apply list_elem_of_In, Hall in Hl. simpl in Hs. congruence.
Qed.

Lemma max_length_enforced_Commit_parents :
  String.length Samples.long_hash = 52%nat ∧
  validate Commit.cls (Samples.commit_with_parent "abc122") = Ok tt ∧
  ∃ bad, validate Commit.cls (Samples.commit_with_parent Samples.long_hash)
         = Raise (ValidationError bad) ∧ "parents" ∈ bad.
Proof.
  split; [reflexivity|]. split; [reflexivity|].
  refine (proj2 (max_length_enforced Commit.cls
                   (Samples.commit_with_parent Samples.long_hash) "parents"
                   (MaxLength 50 kw) 50 Samples.long_hash eq_refl _)
            kw [VStr Samples.long_hash] _ eq_refl _).
  - vm_compute. lia.
  - apply list_elem_of_In. cbn. tauto.
  - apply list_elem_of_In. cbn. tauto.
Defined.

(** ** Further properties of the methods *)

Lemma string_app_assoc (a b c : string) : (a ++ b) ++ c = a ++ (b ++ c).
Proof.
  induction a as [|x a IH]; [done|].
  change (String x ((a ++ b) ++ c) = String x (a ++ (b ++ c))). by rewrite IH.
Qed.

Lemma string_app_nil_r (a : string) : a ++ "" = a.
Proof.
  induction a as [|x a IH]; [done|].
  change (String x (a ++ "") = String x a). by rewrite IH.
Qed.

Lemma string_length_app (a b : string) :
  String.length (a ++ b) = (String.length a + String.length b)%nat.
Proof.
  induction a as [|x a IH]; [done|].
  change (S (String.length (a ++ b)) = S (String.length a + String.length b)).
  by rewrite IH.
Qed.

Section People_hash.
Variable hash : value → result Z.

(** X9: [__hash__] raises a TypeError, without calling [hash], on a record
    whose name or email is not set. *)
Theorem People_hash_needs_name_and_email (self : doc) :
  self !! "name" = None ∨ self !! "email" = None →
  People.__hash__ hash self = Raise TypeError.
Proof.
  unfold People.__hash__, py_add. intros [-> | ->]; [done|].
  destruct (self !! "name") as [[]|]; reflexivity.
Qed.

(** X10: on a record that passes validation, [__hash__] is the [hash] of one
    string, the name followed by the email, of at most 300 characters. *)
Theorem People_hash_of_valid_record (self : doc) :
  validate People.cls self = Ok tt →
  ∃ name email,
    self !! "name" = Some (VStr name) ∧
    self !! "email" = Some (VStr email) ∧
    People.__hash__ hash self = hash (VStr (name ++ email)) ∧
    (String.length (name ++ email) ≤ 300)%nat.
Proof.
  intros Hv. apply validate_ok in Hv.
  pose proof (proj1 (fields_valid_except_spec _ _ _) Hv) as H.
  assert (He := H "email" _ ltac:(apply list_elem_of_In; cbn; tauto)
                  ltac:(apply not_elem_of_nil)).
  assert (Hn := H "name" _ ltac:(apply list_elem_of_In; cbn; tauto)
                  ltac:(apply not_elem_of_nil)).
  destruct (self !! "email") as [[email| | | | | |]|] eqn:Ee; try discriminate He.
  destruct (self !! "name") as [[name| | | | | |]|] eqn:En; try discriminate Hn.
  simpl in He, Hn. apply bool_decide_eq_true in He, Hn.
  exists name, email. repeat split.
  - unfold People.__hash__. by rewrite En, Ee.
  - rewrite string_length_app. lia.
Qed.

(** X11: the hash cannot tell where the name ends: moving the end of the name
    to the front of the email leaves it unchanged. *)
Theorem People_hash_ignores_the_split (p q : doc) (a b c : string) :
  p !! "name" = Some (VStr (a ++ b)) → p !! "email" = Some (VStr c) →
  q !! "name" = Some (VStr a) → q !! "email" = Some (VStr (b ++ c)) →
  People.__hash__ hash p = People.__hash__ hash q.
Proof.
  intros Hpn Hpe Hqn Hqe. unfold People.__hash__.
  rewrite Hpn, Hpe, Hqn, Hqe. simpl. by rewrite string_app_assoc.
Qed.
End People_hash.

Lemma People_hash_needs_name_and_email_empty :
  People.__hash__ Samples.length_hash ∅ = Raise TypeError.
Proof.
  apply (People_hash_needs_name_and_email Samples.length_hash ∅).
  left. reflexivity.
Defined.

Lemma People_hash_of_valid_record_ann :
  ∃ name email,
    Samples.ann !! "name" = Some (VStr name) ∧
    Samples.ann !! "email" = Some (VStr email) ∧
    People.__hash__ Samples.length_hash Samples.ann
      = Samples.length_hash (VStr (name ++ email)) ∧
    (String.length (name ++ email) ≤ 300)%nat.
Proof.
  exact (People_hash_of_valid_record Samples.length_hash Samples.ann eq_refl).
Defined.

Lemma People_hash_ignores_the_split_ab_c :
  People.__hash__ Samples.length_hash Samples.ab_c
    = People.__hash__ Samples.length_hash Samples.a_bc.
Proof.
  exact (People_hash_ignores_the_split Samples.length_hash
           Samples.ab_c Samples.a_bc "a" "b" "c"
           eq_refl eq_refl eq_refl eq_refl).
Defined.

Lemma strings_of_accepted (l : list value) :
  forallb (field_accepts (StringField kw)) l = true →
  ∃ ss, strings_of l = Some ss.
Proof.
  induction l as [|x l IH]; simpl; [eauto|].
  intros [Hx Hl]%andb_true_iff. destruct (IH Hl) as [ss Hss].
  destruct x; try discriminate Hx. rewrite Hss. eauto.
Qed.

Lemma strings_of_non_string (l : list value) (x : value) :
  x ∈ l → (∀ s, x ≠ VStr s) → strings_of l = None.
Proof.
  intros Hx Hns. induction l as [|y l IH]; [by apply elem_of_nil in Hx|].
  apply elem_of_cons in Hx as [<-|Hx].
  - simpl. destruct x; try reflexivity. by destruct (Hns s).
  - simpl. rewrite (IH Hx). by destruct y.
Qed.

Lemma join_of_valid_list_attr (self : doc) (n : string) :
  check_field (ListField (StringField kw) kw) (self !! n) = true →
  ∃ s, py_join "," (list_attr self n) = Ok s.
Proof.
  unfold list_attr. destruct (self !! n) as [v|]; [|simpl; eauto].
  destruct v; try discriminate. simpl. intros H.
  destruct (strings_of_accepted l H) as [ss ->]. eauto.
Qed.

Section str_methods.
Variable str : option value → string.

(** X12: the formats of [Event.__str__] and [IssueComment.__str__] hold as
    many [%s] as arguments are supplied, seven and five: neither method
    raises, whatever the record, and the message lists the attributes in
    the order of the format. *)
Theorem Event_and_IssueComment_str_never_raise (self : doc) :
  Event.__str__ str self =
    Formatted ("system_id: " ++ str (self !! "system_id")
               ++ ", issue_id: " ++ str (self !! "issue_id")
               ++ ", created_at: " ++ str (self !! "created_at")
               ++ ", status: " ++ str (self !! "status")
               ++ ", author_id: " ++ str (self !! "author_id")
               ++ ", old_value: " ++ str (self !! "old_value")
               ++ ", new_value: " ++ str (self !! "new_value"))
  ∧
  IssueComment.__str__ str self =
    Formatted ("system_id: " ++ str (self !! "system_id")
               ++ ", issue_id: " ++ str (self !! "issue_id")
               ++ ", created_at: " ++ str (self !! "created_at")
               ++ ", author_id: " ++ str (self !! "author_id")
               ++ ", comment: " ++ str (self !! "comment")).
Proof.
  split; unfold Event.__str__, IssueComment.__str__.
  - let f := eval vm_compute in Event.fmt in change Event.fmt with f.
    cbn [py_format prepend]. rewrite string_app_nil_r. reflexivity.
  - let f := eval vm_compute in IssueComment.fmt in change IssueComment.fmt with f.
    cbn [py_format prepend]. rewrite string_app_nil_r. reflexivity.
Qed.

(** X13: [Issue.__str__] returns a message on every record that passes
    validation: the four joined attributes are then lists of strings (or
    unset), and the format holds twenty [%s] for twenty arguments. *)
Theorem Issue_str_of_valid_record (self : doc) :
  validate Issue.cls self = Ok tt →
  ∃ message, Issue.__str__ str self = Formatted message.
Proof.
  intros Hv. apply validate_ok in Hv.
  pose proof (proj1 (fields_valid_except_spec _ _ _) Hv) as H.
  assert (Hlist : ∀ n, n ∈ ["affects_versions"; "components"; "labels"; "fix_versions"] →
                       ∃ s, py_join "," (list_attr self n) = Ok s).
  { intros n Hn. apply join_of_valid_list_attr.
    one_of Hn; (apply H; [apply list_elem_of_In; cbn; tauto|apply not_elem_of_nil]). }
  destruct (Hlist "affects_versions") as [av Hav]; [apply list_elem_of_In; cbn; tauto|].
  destruct (Hlist "components") as [co Hco]; [apply list_elem_of_In; cbn; tauto|].
  destruct (Hlist "labels") as [la Hla]; [apply list_elem_of_In; cbn; tauto|].
  destruct (Hlist "fix_versions") as [fv Hfv]; [apply list_elem_of_In; cbn; tauto|].
  unfold Issue.__str__. rewrite Hav, Hco, Hla, Hfv.
  vm_compute. eexists. reflexivity.
Qed.

(** X14: [Issue.__str__] raises a TypeError when one of the four attributes
    it joins holds a list with an item that is not a string. *)
Theorem Issue_str_rejects_non_string_items (self : doc) (n : string)
    (l : list value) (x : value) :
  n ∈ ["affects_versions"; "components"; "labels"; "fix_versions"] →
  self !! n = Some (VList l) → x ∈ l → (∀ s, x ≠ VStr s) →
  Issue.__str__ str self = FormatTypeError.
Proof.
  intros Hn Hl Hx Hns.
  assert (Hbad : py_join "," (list_attr self n) = Raise TypeError).
  { unfold list_attr. rewrite Hl. simpl. by rewrite (strings_of_non_string l x). }
  unfold Issue.__str__. one_of Hn; rewrite Hbad;
    repeat (destruct (py_join _ _)); reflexivity.
Qed.
End str_methods.

Lemma Issue_str_of_valid_record_labelled :
  ∃ message,
    Issue.__str__ Samples.str (Samples.labelled_issue (VStr "ui")) = Formatted message.
Proof.
  exact (Issue_str_of_valid_record Samples.str
           (Samples.labelled_issue (VStr "ui")) eq_refl).
Defined.

Lemma Issue_str_rejects_non_string_items_labelled :
  Issue.__str__ Samples.str (Samples.labelled_issue (VInt 3)) = FormatTypeError.
Proof.
  apply (Issue_str_rejects_non_string_items Samples.str
           (Samples.labelled_issue (VInt 3)) "labels" [VStr "bug"; VInt 3] (VInt 3)).
  - apply list_elem_of_In. cbn. tauto.
  - reflexivity.
  - apply list_elem_of_In. cbn. tauto.
  - discriminate.
Defined.
